(** * go-marathon, application.go: readiness of an application and the
      deployment wait

    A shallow embedding of the parts of [application.go] that decide whether
    an application is up: [AllTaskRunning], [HasHealthChecks], the client
    methods [Applications], [ListApplications], [Application],
    [HasApplication], [ApplicationOK], [WaitOnApplication],
    [CreateApplication] and [UpdateApplication].

    Conventions of the embedding.
    - Go's [int] and [time.Duration] are [Z]; the code only compares them.
    - A slice the code tests against [nil] is an [option (list _)]: [None] is
      the nil slice, [Some []] a slice that is present and empty.
    - A pointer the code tests against [nil] is an [option]; a pointer the
      code dereferences without a test ([*Application], [*Task]) is the
      value it points to.
    - A Go result [(v, err)] is a pair whose second component is
      [option error], [None] being the nil error.
    - The HTTP transport is not part of application.go: the remote side is an
      abstract world with one transition per endpoint, threaded through a
      state monad together with the trace of what the client did. *)

From Stdlib Require Import ZArith List Ascii String Bool Lia.
Import ListNotations.
Open Scope string_scope.
Open Scope Z_scope.

(** ** Data model *)

(** [time.Duration] counts nanoseconds. *)
Definition Duration := Z.
Definition Millisecond : Duration := 1000000.

(** Modelled from the spec: the error values are declared outside
    application.go (only [ErrNoApplicationContainer] is declared in it); the
    code names [ErrDoesNotExist], [ErrInvalidArgument] and, through
    [deadline], the timeout error.  [ErrTransport] stands for any failure of
    the HTTP layer. *)
Inductive error : Type :=
| ErrNoApplicationContainer
| ErrDoesNotExist
| ErrInvalidArgument
| ErrTimeoutError
| ErrTransport (msg : string).

(** What a method returning a pointer and an error yields: the value, or
    nil and the error. *)
Inductive result (A : Type) : Type :=
| Ok (a : A)
| Err (e : error).
Arguments Ok {A} a.
Arguments Err {A} e.

(** Modelled from the spec: the struct [HealthCheckResult] is declared
    outside application.go; the code reads its field [Alive]. *)
Record HealthCheckResult : Type := { Alive : bool }.

(** Modelled from the spec: the struct [Task] is declared outside
    application.go: a task identifier and the sequence of health-check
    results, one slot per check, the slice or a slot possibly nil. *)
Record Task : Type := {
  Task_ID : string;
  Task_HealthCheckResult : option (list (option HealthCheckResult))
}.

(** Modelled from the spec: the struct [HealthCheck] is declared outside
    application.go; these are the fields [CheckHTTP] and [CheckTCP] set. *)
Record HealthCheck : Type := {
  Protocol : string;
  Path : string;
  PortIndex : Z;
  IntervalSeconds : Z
}.

(** The fields of [Application] the readiness code reads. *)
Record Application : Type := {
  ID : string;
  HealthChecks : option (list HealthCheck);
  Instances : Z;
  Tasks : option (list Task);
  TasksRunning : Z
}.

Record Applications : Type := { Apps : list Application }.

(** Modelled from the spec: the struct [DeploymentID] is declared outside
    application.go; [Deployments] fills these two fields. *)
Record DeploymentID : Type := {
  Deployment_Version : string;
  Deployment_ID : string
}.

(** [url.Values]. *)
Definition Values := list (string * list string).

(** The part of the client configuration [WaitOnApplication] reads. *)
Record Config : Type := { DefaultDeploymentTimeout : Duration }.

(** The elements a [range] loop visits: none for a nil slice. *)
Definition elems {A : Type} (s : option (list A)) : list A :=
  match s with
  | None => []
  | Some l => l
  end.

(** ** Methods of [*Application] *)

Definition AllTaskRunning (r : Application) : bool :=
  if Instances r =? 0 then true
  else match Tasks r with
       | None => false
       | Some _ =>
           if TasksRunning r =? Instances r then true
           else false
       end.

Definition HasHealthChecks (r : Application) : bool :=
  match HealthChecks r with
  | Some (_ :: _) => true
  | _ => false
  end.

(** ** The loops of [ApplicationOK]

    Each loop yields [Some v] when its body executes [return v] and [None]
    when it runs to its end. *)

Fixpoint checkLoop (checks : list (option HealthCheckResult))
  : option (bool * option error) :=
  match checks with
  | [] => None
  | check :: rest =>
      match check with
      | None => Some (false, None)
      | Some c =>
          if negb (Alive c) then Some (false, None)
          else checkLoop rest
      end
  end.

Fixpoint taskLoop (tasks : list Task) : option (bool * option error) :=
  match tasks with
  | [] => None
  | task :: rest =>
      match Task_HealthCheckResult task with
      | Some checks =>
          match checkLoop checks with
          | Some v => Some v
          | None => taskLoop rest
          end
      | None => taskLoop rest
      end
  end.

(** The search loop of [HasApplication]. *)
Fixpoint idLoop (name : string) (applications : list string) : bool :=
  match applications with
  | [] => false
  | id :: rest => if String.eqb name id then true else idLoop name rest
  end.

(** ** The world outside application.go *)

(** What the scheduler decides for one bounded wait: how many times the poll
    loop finds the stop switch off before it finds it on, and whether the
    timer fires before the work delivers its result. *)
Record Schedule : Type := {
  quiet_polls : nat;
  timer_first : bool
}.

(** What the client does, in order. *)
Inductive event : Type :=
| EvGetApps (v : Values)
| EvGetApp (id : string)
| EvPostApp (id : string)
| EvPutApp (id : string)
| EvSleep (d : Duration).

(** The collaborators of application.go: the remote API behind [apiGet],
    [apiPost] and [apiPut], the passing of time, the helper [trimRootPath]
    and the scheduling of a bounded wait. *)
Record Externals : Type := {
  World : Type;
  getApps : Values -> World -> result Applications * World;
  getApp : string -> World -> result Application * World;
  postApp : Application -> World -> result Application * World;
  putApp : string -> Application -> World -> result DeploymentID * World;
  elapse : Duration -> World -> World;
  timer : Duration -> World -> Schedule;
  trimRootPath : string -> string
}.

Record State (X : Externals) : Type := {
  remote : World X;
  trace : list event
}.
Arguments remote {X} s.
Arguments trace {X} s.

(** ** The state monad of the client *)

Definition M (X : Externals) (A : Type) : Type := State X -> A * State X.

Definition ret {X : Externals} {A : Type} (a : A) : M X A :=
  fun s => (a, s).

Definition bind {X : Externals} {A B : Type} (m : M X A) (f : A -> M X B)
  : M X B :=
  fun s => let (a, s') := m s in f a s'.

Declare Scope client_scope.
Delimit Scope client_scope with client.
Notation "x <- m ;; k" := (bind m (fun x => k))
  (at level 61, m at next level, right associativity) : client_scope.
Notation "m ;;; k" := (bind m (fun _ => k))
  (at level 61, right associativity) : client_scope.

(** One request: the world answers and moves on, the trace grows. *)
Definition request {X : Externals} {A : Type} (e : event)
    (call : World X -> A * World X) : M X A :=
  fun s =>
    let (a, w) := call (remote s) in
    (a, {| remote := w; trace := trace s ++ [e] |}).

(** [time.Sleep]. *)
Definition Sleep {X : Externals} (d : Duration) : M X unit :=
  fun s =>
    (tt, {| remote := elapse X d (remote s); trace := trace s ++ [EvSleep d] |}).

(** Where the poll loop of [WaitOnApplication] is left: at [return nil]
    inside the body, or at the loop test once the switch is on.  The Go
    closure returns nil at both. *)
Inductive loop_exit : Type :=
| Converged
| Stopped.

(** ** Methods of [*marathonClient] *)

Module marathonClient.

Local Abbreviation ApplicationT := Application (only parsing).
Local Abbreviation ApplicationsT := Applications (only parsing).

Section Receiver.

Variable X : Externals.
Variable config : Config.

Local Open Scope client_scope.

Definition Applications (v : Values) : M X (result ApplicationsT) :=
  request (EvGetApps v) (getApps X v).

Definition ListApplications (v : Values) : M X (result (list string)) :=
  r <- Applications v ;;
  match r with
  | Err err => ret (Err err)
  | Ok applications => ret (Ok (map ID (Apps applications)))
  end.

Definition Application (name : string) : M X (result ApplicationT) :=
  request (EvGetApp (trimRootPath X name)) (getApp X (trimRootPath X name)).

Definition HasApplication (name : string) : M X (bool * option error) :=
  if String.eqb name EmptyString then ret (false, Some ErrInvalidArgument)
  else
    r <- ListApplications [] ;;
    match r with
    | Err err => ret (false, Some err)
    | Ok applications => ret (idLoop name applications, None)
    end.

Definition ApplicationOK (name : string) : M X (bool * option error) :=
  h <- HasApplication name ;;
  match h with
  | (_, Some err) => ret (false, Some err)
  | (false, None) => ret (false, Some ErrDoesNotExist)
  | (true, None) =>
      a <- Application name ;;
      match a with
      | Err err => ret (false, Some err)
      | Ok application =>
          if negb (AllTaskRunning application) then ret (false, None)
          else
            match HealthChecks application with
            | None => ret (true, None)
            | Some [] => ret (true, None)
            | Some (_ :: _) =>
                match taskLoop (elems (Tasks application)) with
                | Some v => ret v
                | None => ret (true, None)
                end
            end
      end
  end.

(** The loop [for !flick.IsSwitched() { ... }] of the closure handed to
    [deadline]; [quiet] is the number of times the test still finds the
    switch off. *)
Fixpoint pollLoop (name : string) (quiet : nat)
  : M X (loop_exit * option error) :=
  match quiet with
  | O => ret (Stopped, None)
  | S quiet' =>
      h <- HasApplication name ;;
      match h with
      | (_, Some _) => pollLoop name quiet'
      | (true, None) =>
          a <- Application name ;;
          match a with
          | Ok app =>
              if AllTaskRunning app then ret (Converged, None)
              else Sleep (500 * Millisecond) ;;; pollLoop name quiet'
          | Err _ => Sleep (500 * Millisecond) ;;; pollLoop name quiet'
          end
      | (false, None) => Sleep (500 * Millisecond) ;;; pollLoop name quiet'
      end
  end.

(** Modelled from the spec: [deadline] is declared outside application.go.
    It starts the work and a timer of [timeout]; exactly one of the two
    decides the outcome: the work's own result when it completes first, the
    timeout error when the timer fires first, in which case the work is told
    to stop and its result is discarded.  The work is told to stop only once
    the timer has fired, so a work that left at the stop switch comes after
    the timeout error.  The stop channel handed to the work is represented
    by the number of loop tests that pass before the switch is found on. *)
Definition deadline (timeout : Duration)
    (work : nat -> M X (loop_exit * option error)) : M X (option error) :=
  fun s =>
    let sch := timer X timeout (remote s) in
    let (r, s') := work (quiet_polls sch) s in
    if timer_first sch then (Some ErrTimeoutError, s')
    else
      match fst r with
      | Stopped => (Some ErrTimeoutError, s')
      | Converged => (snd r, s')
      end.

Definition WaitOnApplication (name : string) (timeout : Duration)
  : M X (option error) :=
  let timeout :=
    if timeout <=? 0 then DefaultDeploymentTimeout config else timeout in
  deadline timeout (fun stop_channel => pollLoop name stop_channel).

Definition CreateApplication (application : ApplicationT)
    (waitOnRunning : bool) : M X (option ApplicationT * option error) :=
  p <- request (EvPostApp (ID application)) (postApp X application) ;;
  match p with
  | Err err => ret (None, Some err)
  | Ok result =>
      if waitOnRunning then
        e <- WaitOnApplication (ID application) 0 ;;
        ret (Some result, e)
      else ret (Some result, None)
  end.

Definition UpdateApplication (application : ApplicationT)
    (waitOnRunning : bool) : M X (option DeploymentID * option error) :=
  p <- request (EvPutApp (trimRootPath X (ID application)))
         (putApp X (trimRootPath X (ID application)) application) ;;
  match p with
  | Err err => ret (None, Some err)
  | Ok result =>
      if waitOnRunning then
        e <- WaitOnApplication (ID application) 0 ;;
        ret (Some result, e)
      else ret (Some result, None)
  end.

End Receiver.

End marathonClient.

(** ** Reading a snapshot *)

(** A slot that reports a live check. *)
Definition slotAlive (slot : option HealthCheckResult) : Prop :=
  exists c, slot = Some c /\ Alive c = true.

(** A slot that is nil (the task is flapping) or reports a dead check. *)
Definition slotFailing (slot : option HealthCheckResult) : Prop :=
  slot = None \/ exists c, slot = Some c /\ Alive c = false.

(** [slot] is one of the health-check results of one of the tasks. *)
Definition slotOf (tasks : list Task) (slot : option HealthCheckResult)
  : Prop :=
  exists task checks,
    In task tasks /\ Task_HealthCheckResult task = Some checks /\
    In slot checks.

(** ** Scripted collaborators, to run the client on concrete inputs *)

Definition dropLeadingSlash (name : string) : string :=
  match name with
  | String "/"%char rest => rest
  | _ => name
  end.

(** A remote that gives the same answers at every request. *)
Definition steady (listing : result Applications)
    (lookup : string -> result Application)
    (sch : Duration -> Schedule) : Externals :=
  {| World := unit;
     getApps := fun _ w => (listing, w);
     getApp := fun id w => (lookup id, w);
     postApp := fun a w => (Ok a, w);
     putApp := fun id _ w =>
       (Ok {| Deployment_Version := "v1"; Deployment_ID := id |}, w);
     elapse := fun _ w => w;
     timer := fun t _ => sch t;
     trimRootPath := dropLeadingSlash |}.

Fixpoint lookupIn (apps : list Application) (id : string)
  : result Application :=
  match apps with
  | [] => Err ErrDoesNotExist
  | a :: rest => if String.eqb (ID a) id then Ok a else lookupIn rest id
  end.

(** A wait in which the switch stays off for one loop test per 500 ms of the
    timeout and the work delivers its result before the timer. *)
Definition patient (timeout : Duration) : Schedule :=
  {| quiet_polls := Z.to_nat (timeout / (500 * Millisecond));
     timer_first := false |}.

(** A remote that serves the given applications. *)
Definition serving (apps : list Application) : Externals :=
  steady (Ok {| Apps := apps |}) (lookupIn apps) patient.

(** A remote whose every request fails. *)
Definition unreachable : Externals :=
  steady (Err (ErrTransport "connection refused"))
         (fun _ => Err (ErrTransport "connection refused")) patient.

Definition start (X : Externals) (w : World X) : State X :=
  {| remote := w; trace := [] |}.

Definition httpCheck : HealthCheck :=
  {| Protocol := "HTTP"; Path := "/health"; PortIndex := 0;
     IntervalSeconds := 10 |}.

Definition alive : option HealthCheckResult := Some {| Alive := true |}.
Definition dead : option HealthCheckResult := Some {| Alive := false |}.

Definition task (id : string)
    (results : option (list (option HealthCheckResult))) : Task :=
  {| Task_ID := id; Task_HealthCheckResult := results |}.

Definition app (checks : option (list HealthCheck)) (instances : Z)
    (tasks : option (list Task)) (running : Z) : Application :=
  {| ID := "web-1"; HealthChecks := checks; Instances := instances;
     Tasks := tasks; TasksRunning := running |}.

Definition tenSeconds : Config :=
  {| DefaultDeploymentTimeout := 10000 * Millisecond |}.

(** ** Snapshots used as concrete inputs *)

Definition threeAlive : list Task :=
  [task "t1" (Some [alive; alive]); task "t2" (Some [alive; alive]);
   task "t3" (Some [alive; alive])].

(** Scaled to zero, no health check, one task still reported with a dead
    check. *)
Definition drainedUnchecked : Application :=
  app None 0 (Some [task "t1" (Some [dead])]) 1.

(** Scaled to zero with a health check and one task still reported with a
    dead check. *)
Definition drainedUnhealthy : Application :=
  app (Some [httpCheck]) 0 (Some [task "t1" (Some [dead])]) 1.

(** Two instances running, the first task without any result list. *)
Definition oneSilent : Application :=
  app (Some [httpCheck]) 2
      (Some [task "t1" None; task "t2" (Some [alive])]) 2.

(** Three instances running and healthy, one slot of the second task nil. *)
Definition oneFlapping : Application :=
  app (Some [httpCheck; httpCheck]) 3
      (Some [task "t1" (Some [alive; alive]); task "t2" (Some [alive; None]);
             task "t3" (Some [alive; alive])]) 3.

(** Three tasks listed and healthy, two reported running. *)
Definition twoOfThree : Application :=
  app (Some [httpCheck; httpCheck]) 3 (Some threeAlive) 2.

(** No health check, parity reached. *)
Definition unchecked : Application :=
  app (Some []) 3 (Some threeAlive) 3.

(** One instance wanted, no task list at all, one task reported running. *)
Definition unscheduled : Application :=
  app None 1 None 1.

(** One instance wanted and reported running, the task list present and
    empty. *)
Definition emptyList : Application :=
  app None 1 (Some []) 1.


(** The state a client of [serving apps] starts in. *)
Definition boot (apps : list Application) : State (serving apps) :=
  start (serving apps) tt.

(** The state [ApplicationOK] leaves when it made both of its requests. *)
Definition listedAndFetched (apps : list Application)
  : State (serving apps) :=
  Build_State (serving apps) tt [EvGetApps []; EvGetApp "web-1"].

(** ** The builder methods of [*Application] and [Deployments]

    These methods use fields of [Application] beyond the five above.  The
    struct is completed around them: [built] holds the five fields, the
    others are added.  The type [Docker], its method [ServicePortIndex] and
    the constructor [NewDefaultHealthCheck] are declared outside
    application.go and are taken as given. *)

(** A [map[string]string], read by key. *)
Definition StringMap := string -> option string.

Record Container (Docker : Type) : Type := {
  Container_Docker : option Docker
}.
Arguments Container_Docker {Docker} c.

Record ApplicationStruct (Docker : Type) : Type := {
  built : Application;
  Args : option (list string);
  App_Container : option (Container Docker);
  Dependencies : option (list string);
  App_DeploymentID : option (list StringMap);
  Version : string
}.
Arguments built {Docker} a.
Arguments Args {Docker} a.
Arguments App_Container {Docker} a.
Arguments Dependencies {Docker} a.
Arguments App_DeploymentID {Docker} a.
Arguments Version {Docker} a.

(** Assignments to one field. *)
Definition setInstances (count : Z) (a : Application) : Application :=
  {| ID := ID a; HealthChecks := HealthChecks a; Instances := count;
     Tasks := Tasks a; TasksRunning := TasksRunning a |}.

Definition setHealthChecks (checks : option (list HealthCheck))
    (a : Application) : Application :=
  {| ID := ID a; HealthChecks := checks; Instances := Instances a;
     Tasks := Tasks a; TasksRunning := TasksRunning a |}.

(** The loop of [Deployments]; [deployments] is the slice built so far, nil
    until the first [append]. *)
Fixpoint deployLoop (version : string) (maps : list StringMap)
    (deployments : option (list DeploymentID))
  : option (list DeploymentID) :=
  match maps with
  | [] => deployments
  | deploy :: rest =>
      match deploy "id" with
      | Some id =>
          deployLoop version rest
            (Some (elems deployments ++
                   [{| Deployment_Version := version;
                       Deployment_ID := id |}])%list)
      | None => deployLoop version rest deployments
      end
  end.

Section Builder.

Variable Docker : Type.
Variable ServicePortIndex : Docker -> Z -> Z * option error.
Variable NewDefaultHealthCheck : HealthCheck.

Definition withBuilt (b : Application) (r : ApplicationStruct Docker)
  : ApplicationStruct Docker :=
  {| built := b; Args := Args r; App_Container := App_Container r;
     Dependencies := Dependencies r; App_DeploymentID := App_DeploymentID r;
     Version := Version r |}.

Definition Count (count : Z) (r : ApplicationStruct Docker)
  : ApplicationStruct Docker :=
  withBuilt (setInstances count (built r)) r.

Definition DependsOn (name : string) (r : ApplicationStruct Docker)
  : ApplicationStruct Docker :=
  let dependencies :=
    match Dependencies r with
    | None => []
    | Some l => l
    end in
  {| built := built r; Args := Args r; App_Container := App_Container r;
     Dependencies := Some (dependencies ++ [name])%list;
     App_DeploymentID := App_DeploymentID r; Version := Version r |}.

Definition Arg (argument : string) (r : ApplicationStruct Docker)
  : ApplicationStruct Docker :=
  let args :=
    match Args r with
    | None => []
    | Some l => l
    end in
  {| built := built r; Args := Some (args ++ [argument])%list;
     App_Container := App_Container r; Dependencies := Dependencies r;
     App_DeploymentID := App_DeploymentID r; Version := Version r |}.

Definition Deployments (r : ApplicationStruct Docker)
  : option (list DeploymentID) :=
  match App_DeploymentID r with
  | None => None
  | Some [] => None
  | Some maps => deployLoop (Version r) maps None
  end.

(** The first statement of [CheckHTTP] and [CheckTCP]: a nil list of checks
    becomes an empty one. *)
Definition ensureHealthChecks (r : ApplicationStruct Docker)
  : ApplicationStruct Docker :=
  match HealthChecks (built r) with
  | None => withBuilt (setHealthChecks (Some []) (built r)) r
  | Some _ => r
  end.

Definition appendHealthCheck (health : HealthCheck)
    (r : ApplicationStruct Docker) : ApplicationStruct Docker :=
  withBuilt
    (setHealthChecks
       (Some (elems (HealthChecks (built r)) ++ [health])%list)
       (built r)) r.

(** [CheckHTTP] and [CheckTCP] change their receiver and return it, or nil
    and an error: the pair is the receiver after the call and the error. *)
Definition CheckHTTP (uri : string) (port interval : Z)
    (r : ApplicationStruct Docker) : ApplicationStruct Docker * option error :=
  let r := ensureHealthChecks r in
  match App_Container r with
  | None => (r, Some ErrNoApplicationContainer)
  | Some container =>
      match Container_Docker container with
      | None => (r, Some ErrNoApplicationContainer)
      | Some docker =>
          match ServicePortIndex docker port with
          | (_, Some err) => (r, Some err)
          | (portIndex, None) =>
              let health := NewDefaultHealthCheck in
              let health :=
                {| Protocol := Protocol health; Path := uri;
                   PortIndex := portIndex; IntervalSeconds := interval |} in
              (appendHealthCheck health r, None)
          end
      end
  end.

Definition CheckTCP (port interval : Z) (r : ApplicationStruct Docker)
  : ApplicationStruct Docker * option error :=
  let r := ensureHealthChecks r in
  match App_Container r with
  | None => (r, Some ErrNoApplicationContainer)
  | Some container =>
      match Container_Docker container with
      | None => (r, Some ErrNoApplicationContainer)
      | Some docker =>
          match ServicePortIndex docker port with
          | (_, Some err) => (r, Some err)
          | (portIndex, None) =>
              let health := NewDefaultHealthCheck in
              let health :=
                {| Protocol := "TCP"; Path := Path health;
                   PortIndex := portIndex; IntervalSeconds := interval |} in
              (appendHealthCheck health r, None)
          end
      end
  end.

End Builder.

(** ** Reading a trace *)

Definition isSleep (e : event) : bool :=
  match e with
  | EvSleep _ => true
  | _ => false
  end.

Definition isRequest (e : event) : bool := negb (isSleep e).

(** The ids a list of deployment maps carries under the key id. *)
Definition deploymentIds (maps : list StringMap) : list string :=
  flat_map (fun deploy : StringMap =>
              match deploy "id" with
              | Some id => [id]
              | None => []
              end) maps.

(** ** More scripted collaborators *)

(** A [Docker] given by the container ports it maps, and the index of a
    port among them. *)
Fixpoint portIndexFrom (index : Z) (ports : list Z) (port : Z)
  : Z * option error :=
  match ports with
  | [] => (0, Some (ErrTransport "port not mapped"))
  | p :: rest =>
      if p =? port then (index, None)
      else portIndexFrom (index + 1) rest port
  end.

Definition mappedPorts (ports : list Z) (port : Z) : Z * option error :=
  portIndexFrom 0 ports port.

Definition plainCheck : HealthCheck :=
  {| Protocol := "HTTP"; Path := EmptyString; PortIndex := 0;
     IntervalSeconds := 10 |}.

Definition blank (container : option (Container (list Z)))
  : ApplicationStruct (list Z) :=
  {| built := app None 0 None 0; Args := None; App_Container := container;
     Dependencies := None; App_DeploymentID := None; Version := "v7" |}.

Definition dockerised : ApplicationStruct (list Z) :=
  blank (Some {| Container_Docker := Some [8080; 9090] |}).

Definition oneKey (key value : string) : StringMap :=
  fun k => if String.eqb k key then Some value else None.

Definition deploying : ApplicationStruct (list Z) :=
  {| built := app None 0 None 0; Args := None; App_Container := None;
     Dependencies := None;
     App_DeploymentID :=
       Some [oneKey "id" "d-1"; oneKey "version" "v7"; oneKey "id" "d-2"];
     Version := "v7" |}.

(** An application listed under its absolute id. *)
Definition rooted : Application :=
  {| ID := "/web-1"; HealthChecks := None; Instances := 1;
     Tasks := Some [task "t1" None]; TasksRunning := 1 |}.

(** A remote that lists the given applications and refuses every fetch. *)
Definition listingOnly (apps : list Application) : Externals :=
  steady (Ok {| Apps := apps |})
         (fun _ => Err (ErrTransport "connection reset")) patient.

(** A remote that refuses to create or update an application. *)
Definition readOnly : Externals :=
  {| World := unit;
     getApps := fun _ w => (Ok {| Apps := [] |}, w);
     getApp := fun _ w => (Err ErrDoesNotExist, w);
     postApp := fun _ w => (Err (ErrTransport "forbidden"), w);
     putApp := fun _ _ w => (Err (ErrTransport "forbidden"), w);
     elapse := fun _ w => w;
     timer := fun t _ => patient t;
     trimRootPath := dropLeadingSlash |}.

(** * Properties *)

(** ** The health-check loops *)

Lemma checkLoop_returns_false checks v :
  checkLoop checks = Some v -> v = (false, None).
Proof.
  induction checks as [|[c|] rest IH]; simpl; intros H.
  - discriminate.
  - destruct (Alive c); simpl in H; [auto | congruence].
  - congruence.
Qed.

Lemma checkLoop_completes checks :
  checkLoop checks = None <-> Forall slotAlive checks.
Proof.
  induction checks as [|[c|] rest IH]; simpl.
  - split; auto.
  - destruct (Alive c) eqn:E; simpl.
    + rewrite IH. split; intros H.
      * constructor; [exists c; auto | exact H].
      * inversion H; assumption.
    + split; [discriminate|].
      intros H. inversion H as [|? ? [c' [Hc Ha]] _]. congruence.
  - split; [discriminate|].
    intros H. inversion H as [|? ? [c' [Hc _]] _]. discriminate.
Qed.

Lemma taskLoop_returns_false tasks v :
  taskLoop tasks = Some v -> v = (false, None).
Proof.
  induction tasks as [|t rest IH]; simpl; intros H.
  - discriminate.
  - destruct (Task_HealthCheckResult t) as [checks|]; [|auto].
    destruct (checkLoop checks) eqn:E; [|auto].
    inversion H; subst. eapply checkLoop_returns_false; eassumption.
Qed.

Lemma taskLoop_completes tasks :
  taskLoop tasks = None <-> (forall slot, slotOf tasks slot -> slotAlive slot).
Proof.
  induction tasks as [|t rest IH]; simpl.
  - split; [|reflexivity].
    intros _ slot (t & checks & [] & _).
  - destruct (Task_HealthCheckResult t) as [checks|] eqn:Et.
    + destruct (checkLoop checks) eqn:Ec.
      * split; [discriminate|]. intros H.
        assert (Hall : Forall slotAlive checks).
        { apply Forall_forall. intros slot Hin. apply H.
          exists t, checks. simpl. auto. }
        apply checkLoop_completes in Hall. congruence.
      * rewrite IH. apply checkLoop_completes in Ec.
        split; intros H slot (t' & checks' & Hin & Hr & Hs).
        -- destruct Hin as [<-|Hin].
           ++ rewrite Et in Hr. inversion Hr; subst.
              eapply Forall_forall; eassumption.
           ++ apply H. exists t', checks'. auto.
        -- apply H. exists t', checks'. simpl. auto.
    + rewrite IH.
      split; intros H slot (t' & checks' & Hin & Hr & Hs).
      * destruct Hin as [<-|Hin]; [congruence|].
        apply H. exists t', checks'. auto.
      * apply H. exists t', checks'. simpl. auto.
Qed.

Lemma slotFailing_not_alive slot : slotFailing slot -> ~ slotAlive slot.
Proof.
  intros [->|(c & -> & Hc)] (c' & Hs & Ha); [discriminate|].
  inversion Hs; subst. congruence.
Qed.

Lemma taskLoop_failing tasks slot :
  slotOf tasks slot -> slotFailing slot -> taskLoop tasks = Some (false, None).
Proof.
  intros Hof Hf. destruct (taskLoop tasks) as [v|] eqn:E.
  - f_equal. eapply taskLoop_returns_false; eassumption.
  - exfalso. eapply slotFailing_not_alive; [eassumption|].
    eapply taskLoop_completes; eassumption.
Qed.

(** ** [ApplicationOK] once the snapshot is fetched *)

Section Fetched.

Variable X : Externals.
Variables (name : string) (s s1 s2 : State X) (application : Application).
Hypothesis exists_ : marathonClient.HasApplication X name s = ((true, None), s1).
Hypothesis fetched : marathonClient.Application X name s1 = (Ok application, s2).

Lemma ApplicationOK_not_running :
  AllTaskRunning application = false ->
  marathonClient.ApplicationOK X name s = ((false, None), s2).
Proof.
  intros H. unfold marathonClient.ApplicationOK, bind.
  rewrite exists_, fetched, H. reflexivity.
Qed.

Lemma ApplicationOK_no_checks :
  AllTaskRunning application = true ->
  HasHealthChecks application = false ->
  marathonClient.ApplicationOK X name s = ((true, None), s2).
Proof.
  intros H Hc. unfold marathonClient.ApplicationOK, bind.
  rewrite exists_, fetched, H. simpl.
  unfold HasHealthChecks in Hc.
  destruct (HealthChecks application) as [[|]|]; try reflexivity.
  discriminate.
Qed.

Lemma ApplicationOK_checks :
  AllTaskRunning application = true ->
  HasHealthChecks application = true ->
  marathonClient.ApplicationOK X name s =
    (match taskLoop (elems (Tasks application)) with
     | Some v => v
     | None => (true, None)
     end, s2).
Proof.
  intros H Hc. unfold marathonClient.ApplicationOK, bind.
  rewrite exists_, fetched, H. simpl.
  unfold HasHealthChecks in Hc.
  destruct (HealthChecks application) as [[|]|]; try discriminate.
  destruct (taskLoop _); reflexivity.
Qed.

Lemma ApplicationOK_all_alive :
  AllTaskRunning application = true ->
  (forall slot, slotOf (elems (Tasks application)) slot -> slotAlive slot) ->
  marathonClient.ApplicationOK X name s = ((true, None), s2).
Proof.
  intros H Hall. destruct (HasHealthChecks application) eqn:Hc.
  - rewrite (ApplicationOK_checks H Hc).
    apply taskLoop_completes in Hall. rewrite Hall. reflexivity.
  - apply ApplicationOK_no_checks; assumption.
Qed.

Lemma ApplicationOK_some_failing slot :
  AllTaskRunning application = true ->
  HasHealthChecks application = true ->
  slotOf (elems (Tasks application)) slot -> slotFailing slot ->
  marathonClient.ApplicationOK X name s = ((false, None), s2).
Proof.
  intros H Hc Hof Hf. rewrite (ApplicationOK_checks H Hc).
  rewrite (taskLoop_failing _ _ Hof Hf). reflexivity.
Qed.

Lemma ApplicationOK_true_all_alive :
  HasHealthChecks application = true ->
  marathonClient.ApplicationOK X name s = ((true, None), s2) ->
  forall slot, slotOf (elems (Tasks application)) slot -> slotAlive slot.
Proof.
  intros Hc Hok. destruct (AllTaskRunning application) eqn:H.
  - rewrite (ApplicationOK_checks H Hc) in Hok.
    apply taskLoop_completes.
    destruct (taskLoop _) as [v|] eqn:E; [|reflexivity].
    apply taskLoop_returns_false in E. subst v. discriminate.
  - rewrite (ApplicationOK_not_running H) in Hok. discriminate.
Qed.

End Fetched.

(** ** Instance-count parity *)

Lemma AllTaskRunning_zero r : Instances r = 0 -> AllTaskRunning r = true.
Proof. intros H. unfold AllTaskRunning. rewrite H. reflexivity. Qed.

Lemma AllTaskRunning_present r ts :
  Instances r <> 0 -> Tasks r = Some ts ->
  AllTaskRunning r = (TasksRunning r =? Instances r).
Proof.
  intros Hi Ht. unfold AllTaskRunning. rewrite Ht.
  destruct (Z.eqb_spec (Instances r) 0); [contradiction|].
  destruct (TasksRunning r =? Instances r); reflexivity.
Qed.

Lemma AllTaskRunning_nil r :
  Instances r <> 0 -> Tasks r = None -> AllTaskRunning r = false.
Proof.
  intros Hi Ht. unfold AllTaskRunning. rewrite Ht.
  destruct (Z.eqb_spec (Instances r) 0); [contradiction|reflexivity].
Qed.

Lemma HasHealthChecks_none r :
  HealthChecks r = None \/ HealthChecks r = Some [] <->
  HasHealthChecks r = false.
Proof.
  unfold HasHealthChecks.
  destruct (HealthChecks r) as [[|]|]; split; intros H; auto;
    try discriminate; destruct H; discriminate.
Qed.

(** ** The claims on [ApplicationOK] and [AllTaskRunning] *)

Section Snapshot.

Variable X : Externals.
Variables (name : string) (s s1 s2 : State X) (application : Application).
Hypothesis exists_ : marathonClient.HasApplication X name s = ((true, None), s1).
Hypothesis fetched : marathonClient.Application X name s1 = (Ok application, s2).

(** C1, as amended.  When the desired instance count is 0, [AllTaskRunning]
    holds whatever the task list and the running count are, and
    [ApplicationOK] answers (true, nil) when no health check is configured or
    when every health-check slot of every task is alive; with health checks
    configured and some slot nil or not alive it answers (false, nil). *)
Theorem ApplicationOK_zero_instances :
  Instances application = 0 ->
  AllTaskRunning application = true /\
  (HasHealthChecks application = false ->
   marathonClient.ApplicationOK X name s = ((true, None), s2)) /\
  ((forall slot, slotOf (elems (Tasks application)) slot -> slotAlive slot) ->
   marathonClient.ApplicationOK X name s = ((true, None), s2)) /\
  (HasHealthChecks application = true ->
   forall slot, slotOf (elems (Tasks application)) slot -> slotFailing slot ->
   marathonClient.ApplicationOK X name s = ((false, None), s2)).
Proof.
  intros Hz. pose proof (AllTaskRunning_zero _ Hz) as Hr.
  repeat split.
  - exact Hr.
  - intros Hc. eapply ApplicationOK_no_checks; eassumption.
  - intros Hall. eapply ApplicationOK_all_alive; eassumption.
  - intros Hc slot Hof Hf. eapply ApplicationOK_some_failing; eassumption.
Qed.

(** C2, as amended.  With health checks configured and instance-count
    parity, a task whose whole result list is nil is skipped: the answer is
    (true, nil) when every slot of every other task is alive, and
    (false, nil) when some task has a nil or not alive slot. *)
Theorem ApplicationOK_skips_absent_results (t : Task) :
  HasHealthChecks application = true ->
  AllTaskRunning application = true ->
  In t (elems (Tasks application)) ->
  Task_HealthCheckResult t = None ->
  ((forall t' checks slot,
       In t' (elems (Tasks application)) -> t' <> t ->
       Task_HealthCheckResult t' = Some checks -> In slot checks ->
       slotAlive slot) ->
   marathonClient.ApplicationOK X name s = ((true, None), s2)) /\
  (forall t' checks slot,
       In t' (elems (Tasks application)) ->
       Task_HealthCheckResult t' = Some checks -> In slot checks ->
       slotFailing slot ->
   marathonClient.ApplicationOK X name s = ((false, None), s2)).
Proof.
  intros Hc Hr Hin Hnil. split.
  - intros Hothers. eapply ApplicationOK_all_alive; try eassumption.
    intros slot (t' & checks & Hin' & Hres & Hslot).
    apply (Hothers t' checks slot); auto.
    intros ->. congruence.
  - intros t' checks slot Hin' Hres Hslot Hf.
    eapply ApplicationOK_some_failing; try eassumption.
    exists t', checks. auto.
Qed.

(** C3.  With health checks configured and instance-count parity,
    [ApplicationOK] answers (false, nil) as soon as one slot of one task is
    nil or not alive, and it answers (true, nil) exactly when every slot of
    every task is alive. *)
Theorem ApplicationOK_health_conjunction :
  HasHealthChecks application = true ->
  AllTaskRunning application = true ->
  (forall slot,
      slotOf (elems (Tasks application)) slot -> slotFailing slot ->
      marathonClient.ApplicationOK X name s = ((false, None), s2)) /\
  (marathonClient.ApplicationOK X name s = ((true, None), s2) <->
   forall slot, slotOf (elems (Tasks application)) slot -> slotAlive slot).
Proof.
  intros Hc Hr. split.
  - intros slot Hof Hf. eapply ApplicationOK_some_failing; eassumption.
  - split.
    + intros Hok. eapply ApplicationOK_true_all_alive; eassumption.
    + intros Hall. eapply ApplicationOK_all_alive; eassumption.
Qed.

(** C4.  With a positive desired instance count, a task list that is present
    and a reported running count different from the desired count,
    [AllTaskRunning] fails and [ApplicationOK] answers (false, nil), whatever
    the health checks and their results are.  The tasks are not counted: any
    snapshot with the same two counts and a present task list fails too. *)
Theorem ApplicationOK_parity_mismatch (ts : list Task) :
  0 < Instances application ->
  Tasks application = Some ts ->
  TasksRunning application <> Instances application ->
  AllTaskRunning application = false /\
  marathonClient.ApplicationOK X name s = ((false, None), s2) /\
  (forall other ts',
      Instances other = Instances application ->
      TasksRunning other = TasksRunning application ->
      Tasks other = Some ts' ->
      AllTaskRunning other = false).
Proof.
  intros Hpos Ht Hne.
  assert (Hr : AllTaskRunning application = false).
  { rewrite (AllTaskRunning_present _ ts); [|lia|assumption].
    apply Z.eqb_neq. assumption. }
  repeat split.
  - exact Hr.
  - eapply ApplicationOK_not_running; eassumption.
  - intros other ts' Hi Hn Ht'.
    rewrite (AllTaskRunning_present _ ts'); [|lia|assumption].
    apply Z.eqb_neq. lia.
Qed.

(** C5.  With no health check configured (the list nil or empty), a positive
    desired instance count, a task list that is present and a reported
    running count equal to the desired count, [ApplicationOK] answers
    (true, nil). *)
Theorem ApplicationOK_parity_suffices (ts : list Task) :
  HealthChecks application = None \/ HealthChecks application = Some [] ->
  0 < Instances application ->
  Tasks application = Some ts ->
  TasksRunning application = Instances application ->
  marathonClient.ApplicationOK X name s = ((true, None), s2).
Proof.
  intros Hc Hpos Ht Heq.
  eapply ApplicationOK_no_checks; try eassumption.
  - rewrite (AllTaskRunning_present _ ts); [|lia|assumption].
    apply Z.eqb_eq. assumption.
  - apply HasHealthChecks_none. assumption.
Qed.

(** C6, as amended.  With a positive desired instance count and a task list
    that is absent (nil), [AllTaskRunning] fails and [ApplicationOK] answers
    (false, nil), whatever the reported running count is.  A task list that
    is present and empty is not refused: [AllTaskRunning] then holds exactly
    when the reported running count equals the desired count. *)
Theorem AllTaskRunning_absent_tasks :
  0 < Instances application ->
  (Tasks application = None ->
   AllTaskRunning application = false /\
   marathonClient.ApplicationOK X name s = ((false, None), s2)) /\
  (Tasks application = Some [] ->
   AllTaskRunning application
   = (TasksRunning application =? Instances application)).
Proof.
  intros Hpos. split.
  - intros Ht.
    assert (Hr : AllTaskRunning application = false)
      by (apply AllTaskRunning_nil; [lia|assumption]).
    split; [exact Hr|].
    eapply ApplicationOK_not_running; eassumption.
  - intros Ht. apply (AllTaskRunning_present _ []); [lia|assumption].
Qed.

End Snapshot.

(** ** The claims at concrete snapshots *)

Lemma ApplicationOK_zero_instances_witness :
  Instances drainedUnchecked = 0 /\
  marathonClient.ApplicationOK (serving [drainedUnchecked]) "web-1"
    (boot [drainedUnchecked])
  = ((true, None), listedAndFetched [drainedUnchecked]).
Proof.
  split; [reflexivity|].
  destruct (ApplicationOK_zero_instances (serving [drainedUnchecked]) "web-1"
              (boot _) _ _ drainedUnchecked eq_refl eq_refl eq_refl)
    as (_ & Hunchecked & _).
  apply Hunchecked. reflexivity.
Defined.

(** C1 as stated fails: scaled to zero, yet refused for a dead check. *)
Lemma ApplicationOK_zero_instances_unhealthy :
  Instances drainedUnhealthy = 0 /\
  marathonClient.ApplicationOK (serving [drainedUnhealthy]) "web-1"
    (boot [drainedUnhealthy])
  = ((false, None), listedAndFetched [drainedUnhealthy]).
Proof. split; reflexivity. Qed.

(** C2 as stated fails: the task without a result list is passed over. *)
Lemma ApplicationOK_silent_task_ready :
  HasHealthChecks oneSilent = true /\
  AllTaskRunning oneSilent = true /\
  In (task "t1" None) (elems (Tasks oneSilent)) /\
  marathonClient.ApplicationOK (serving [oneSilent]) "web-1" (boot [oneSilent])
  = ((true, None), listedAndFetched [oneSilent]).
Proof. repeat split; simpl; auto. Qed.

Lemma ApplicationOK_skips_absent_results_witness :
  Task_HealthCheckResult (task "t1" None) = None /\
  marathonClient.ApplicationOK (serving [oneSilent]) "web-1" (boot [oneSilent])
  = ((true, None), listedAndFetched [oneSilent]).
Proof.
  split; [reflexivity|].
  destruct (ApplicationOK_skips_absent_results (serving [oneSilent]) "web-1"
              (boot _) _ _ oneSilent eq_refl eq_refl (task "t1" None)
              eq_refl eq_refl (or_introl eq_refl) eq_refl)
    as (Hothers & _).
  apply Hothers. intros t' checks slot Hin Hne Hres Hslot.
  destruct Hin as [<-|[<-|[]]]; [contradiction|].
  inversion Hres; subst checks.
  destruct Hslot as [<-|[]]. exists {| Alive := true |}. split; reflexivity.
Defined.

Lemma ApplicationOK_health_conjunction_witness :
  slotOf (elems (Tasks oneFlapping)) None /\
  marathonClient.ApplicationOK (serving [oneFlapping]) "web-1"
    (boot [oneFlapping])
  = ((false, None), listedAndFetched [oneFlapping]).
Proof.
  assert (Hof : slotOf (elems (Tasks oneFlapping)) None).
  { exists (task "t2" (Some [alive; None])), [alive; None].
    simpl. auto. }
  split; [exact Hof|].
  destruct (ApplicationOK_health_conjunction (serving [oneFlapping]) "web-1"
              (boot _) _ _ oneFlapping eq_refl eq_refl eq_refl eq_refl)
    as (Hfail & _).
  apply (Hfail None Hof). left. reflexivity.
Defined.

Lemma ApplicationOK_parity_mismatch_witness :
  Z.of_nat (List.length threeAlive) = Instances twoOfThree /\
  AllTaskRunning twoOfThree = false /\
  marathonClient.ApplicationOK (serving [twoOfThree]) "web-1"
    (boot [twoOfThree])
  = ((false, None), listedAndFetched [twoOfThree]).
Proof.
  split; [reflexivity|].
  assert (Hpos : 0 < Instances twoOfThree) by (simpl; lia).
  assert (Hne : TasksRunning twoOfThree <> Instances twoOfThree)
    by (simpl; lia).
  destruct (ApplicationOK_parity_mismatch (serving [twoOfThree]) "web-1"
              (boot _) _ _ twoOfThree eq_refl eq_refl threeAlive
              Hpos eq_refl Hne)
    as (Hrun & Hok & _).
  split; assumption.
Defined.

Lemma ApplicationOK_parity_suffices_witness :
  HealthChecks unchecked = Some [] /\
  marathonClient.ApplicationOK (serving [unchecked]) "web-1" (boot [unchecked])
  = ((true, None), listedAndFetched [unchecked]).
Proof.
  split; [reflexivity|].
  assert (Hpos : 0 < Instances unchecked) by (simpl; lia).
  apply (ApplicationOK_parity_suffices (serving [unchecked]) "web-1"
           (boot _) _ _ unchecked eq_refl eq_refl threeAlive
           (or_intror eq_refl) Hpos eq_refl eq_refl).
Defined.

(** C6 as stated fails: an empty task list passes on the reported count. *)
Lemma AllTaskRunning_empty_list_ready :
  0 < Instances emptyList /\
  Tasks emptyList = Some [] /\
  AllTaskRunning emptyList = true /\
  marathonClient.ApplicationOK (serving [emptyList]) "web-1" (boot [emptyList])
  = ((true, None), listedAndFetched [emptyList]).
Proof. repeat split; simpl; lia. Qed.

Lemma AllTaskRunning_absent_tasks_witness :
  TasksRunning unscheduled = Instances unscheduled /\
  AllTaskRunning unscheduled = false /\
  marathonClient.ApplicationOK (serving [unscheduled]) "web-1"
    (boot [unscheduled])
  = ((false, None), listedAndFetched [unscheduled]).
Proof.
  split; [reflexivity|].
  assert (Hpos : 0 < Instances unscheduled) by (simpl; lia).
  destruct (AllTaskRunning_absent_tasks (serving [unscheduled]) "web-1"
              (boot _) _ _ unscheduled eq_refl eq_refl Hpos)
    as (Hnil & _).
  apply Hnil. reflexivity.
Defined.

(** ** One turn of the poll loop *)

Section Polling.

Variable X : Externals.
Variable config : Config.

Lemma pollLoop_error name quiet (s s1 : State X) found err :
  marathonClient.HasApplication X name s = ((found, Some err), s1) ->
  marathonClient.pollLoop X name (S quiet) s
  = marathonClient.pollLoop X name quiet s1.
Proof.
  intros H. cbn [marathonClient.pollLoop]. unfold bind at 1.
  rewrite H. destruct found; reflexivity.
Qed.

Lemma pollLoop_absent name quiet (s s1 : State X) :
  marathonClient.HasApplication X name s = ((false, None), s1) ->
  marathonClient.pollLoop X name (S quiet) s
  = marathonClient.pollLoop X name quiet (snd (Sleep (500 * Millisecond) s1)).
Proof.
  intros H. cbn [marathonClient.pollLoop]. unfold bind at 1.
  rewrite H. reflexivity.
Qed.

Lemma pollLoop_fetch_error name quiet (s s1 s2 : State X) err :
  marathonClient.HasApplication X name s = ((true, None), s1) ->
  marathonClient.Application X name s1 = (Err err, s2) ->
  marathonClient.pollLoop X name (S quiet) s
  = marathonClient.pollLoop X name quiet (snd (Sleep (500 * Millisecond) s2)).
Proof.
  intros H Ha. cbn [marathonClient.pollLoop]. unfold bind at 1.
  rewrite H. unfold bind at 1. rewrite Ha. reflexivity.
Qed.

Lemma pollLoop_not_running name quiet (s s1 s2 : State X) application :
  marathonClient.HasApplication X name s = ((true, None), s1) ->
  marathonClient.Application X name s1 = (Ok application, s2) ->
  AllTaskRunning application = false ->
  marathonClient.pollLoop X name (S quiet) s
  = marathonClient.pollLoop X name quiet (snd (Sleep (500 * Millisecond) s2)).
Proof.
  intros H Ha Hr. cbn [marathonClient.pollLoop]. unfold bind at 1.
  rewrite H. unfold bind at 1. rewrite Ha, Hr. reflexivity.
Qed.

Lemma pollLoop_converged name quiet (s s1 s2 : State X) application :
  marathonClient.HasApplication X name s = ((true, None), s1) ->
  marathonClient.Application X name s1 = (Ok application, s2) ->
  AllTaskRunning application = true ->
  marathonClient.pollLoop X name (S quiet) s = ((Converged, None), s2).
Proof.
  intros H Ha Hr. cbn [marathonClient.pollLoop]. unfold bind at 1.
  rewrite H. unfold bind at 1. rewrite Ha, Hr. reflexivity.
Qed.

Lemma pollLoop_returns_nil name quiet :
  forall s : State X, snd (fst (marathonClient.pollLoop X name quiet s)) = None.
Proof.
  induction quiet as [|quiet IH]; intros s; [reflexivity|].
  destruct (marathonClient.HasApplication X name s) as [[found [err|]] s1] eqn:H.
  - rewrite (pollLoop_error _ _ _ _ _ _ H). apply IH.
  - destruct found.
    + destruct (marathonClient.Application X name s1) as [[a|err] s2] eqn:Ha.
      * destruct (AllTaskRunning a) eqn:Hr.
        -- rewrite (pollLoop_converged _ _ _ _ _ _ H Ha Hr). reflexivity.
        -- rewrite (pollLoop_not_running _ _ _ _ _ _ H Ha Hr). apply IH.
      * rewrite (pollLoop_fetch_error _ _ _ _ _ _ H Ha). apply IH.
    + rewrite (pollLoop_absent _ _ _ _ H). apply IH.
Qed.

Lemma WaitOnApplication_unfold name timeout (s : State X) :
  marathonClient.WaitOnApplication X config name timeout s
  = marathonClient.deadline X
      (if timeout <=? 0 then DefaultDeploymentTimeout config else timeout)
      (marathonClient.pollLoop X name) s.
Proof. reflexivity. Qed.

Lemma deadline_outcome timeout work (s : State X) :
  (forall quiet s', snd (fst (work quiet s')) = None) ->
  fst (marathonClient.deadline X timeout work s) = None \/
  fst (marathonClient.deadline X timeout work s) = Some ErrTimeoutError.
Proof.
  intros Hnil. unfold marathonClient.deadline.
  specialize (Hnil (quiet_polls (timer X timeout (remote s))) s).
  destruct (work _ s) as [[exit e] s'].
  destruct (timer_first _); destruct exit; simpl in *; auto.
Qed.

Lemma CreateApplication_waits application result w (s : State X) :
  postApp X application (remote s) = (Ok result, w) ->
  marathonClient.CreateApplication X config application true s
  = (let (e, s') :=
       marathonClient.WaitOnApplication X config (ID application) 0
         (Build_State X w (trace s ++ [EvPostApp (ID application)])) in
     ((Some result, e), s')).
Proof.
  intros H. unfold marathonClient.CreateApplication, bind at 1, request.
  rewrite H. reflexivity.
Qed.

Lemma UpdateApplication_waits application result w (s : State X) :
  putApp X (trimRootPath X (ID application)) application (remote s)
  = (Ok result, w) ->
  marathonClient.UpdateApplication X config application true s
  = (let (e, s') :=
       marathonClient.WaitOnApplication X config (ID application) 0
         (Build_State X w
            (trace s ++ [EvPutApp (trimRootPath X (ID application))])) in
     ((Some result, e), s')).
Proof.
  intros H. unfold marathonClient.UpdateApplication, bind at 1, request.
  rewrite H. reflexivity.
Qed.

End Polling.

(** ** The claims on [WaitOnApplication] *)

Section Waiting.

Variable X : Externals.
Variable config : Config.


(** C8.  A timeout of 0 or less is replaced by the configured default before
    the bounded wait starts: the call is the call with the default timeout,
    and the timer is armed with the default. *)
Theorem WaitOnApplication_default_timeout name timeout (s : State X) :
  timeout <= 0 ->
  marathonClient.WaitOnApplication X config name timeout s
  = marathonClient.WaitOnApplication X config name
      (DefaultDeploymentTimeout config) s /\
  marathonClient.WaitOnApplication X config name timeout s
  = marathonClient.deadline X (DefaultDeploymentTimeout config)
      (marathonClient.pollLoop X name) s.
Proof.
  intros Hle. rewrite !WaitOnApplication_unfold.
  apply Z.leb_le in Hle. rewrite Hle.
  split; [|reflexivity].
  destruct (DefaultDeploymentTimeout config <=? 0); reflexivity.
Qed.

(** C9.  The poll loop swallows every error of the existence check and of
    the snapshot fetch: after such an error the loop is at its test again,
    the closure handed to [deadline] returns nil on every path, and
    [WaitOnApplication] returns nil or the timeout error, nothing else. *)
Theorem WaitOnApplication_swallows_errors name :
  (forall quiet (s s1 : State X) found err,
      marathonClient.HasApplication X name s = ((found, Some err), s1) ->
      marathonClient.pollLoop X name (S quiet) s
      = marathonClient.pollLoop X name quiet s1) /\
  (forall quiet (s s1 s2 : State X) err,
      marathonClient.HasApplication X name s = ((true, None), s1) ->
      marathonClient.Application X name s1 = (Err err, s2) ->
      marathonClient.pollLoop X name (S quiet) s
      = marathonClient.pollLoop X name quiet
          (snd (Sleep (500 * Millisecond) s2))) /\
  (forall quiet (s : State X),
      snd (fst (marathonClient.pollLoop X name quiet s)) = None) /\
  (forall timeout (s : State X),
      fst (marathonClient.WaitOnApplication X config name timeout s) = None \/
      fst (marathonClient.WaitOnApplication X config name timeout s)
      = Some ErrTimeoutError).
Proof.
  repeat apply conj.
  - intros. eapply pollLoop_error; eassumption.
  - intros. eapply pollLoop_fetch_error; eassumption.
  - intros. apply pollLoop_returns_nil.
  - intros timeout s. rewrite WaitOnApplication_unfold.
    apply deadline_outcome. intros. apply pollLoop_returns_nil.
Qed.

End Waiting.

(** C10, the code at the failing input.  When the listing fails, three
    turns of the poll loop make three requests and never sleep; when the
    listing succeeds and the application is not in it, every turn sleeps
    500 ms. *)
Theorem pollLoop_error_turn_does_not_sleep :
  trace (snd (marathonClient.pollLoop unreachable "web-1" 3
                (start unreachable tt)))
  = [EvGetApps []; EvGetApps []; EvGetApps []] /\
  trace (snd (marathonClient.pollLoop (serving []) "web-1" 3 (boot [])))
  = [EvGetApps []; EvSleep (500 * Millisecond);
     EvGetApps []; EvSleep (500 * Millisecond);
     EvGetApps []; EvSleep (500 * Millisecond)].
Proof. split; reflexivity. Qed.


Lemma WaitOnApplication_default_timeout_witness :
  0 <= 0 /\
  marathonClient.WaitOnApplication (serving [unscheduled]) tenSeconds
    "web-1" 0 (boot [unscheduled])
  = marathonClient.WaitOnApplication (serving [unscheduled]) tenSeconds
      "web-1" (10000 * Millisecond) (boot [unscheduled]).
Proof.
  split; [lia|].
  apply (WaitOnApplication_default_timeout (serving [unscheduled]) tenSeconds
           "web-1" 0 (boot _)).
  lia.
Defined.

Lemma WaitOnApplication_swallows_errors_witness :
  marathonClient.HasApplication unreachable "web-1" (start unreachable tt)
  = ((false, Some (ErrTransport "connection refused")),
     Build_State unreachable tt [EvGetApps []]) /\
  marathonClient.pollLoop unreachable "web-1" 2 (start unreachable tt)
  = marathonClient.pollLoop unreachable "web-1" 1
      (Build_State unreachable tt [EvGetApps []]) /\
  marathonClient.Application (listingOnly [unchecked]) "web-1"
    (Build_State (listingOnly [unchecked]) tt [EvGetApps []])
  = (Err (ErrTransport "connection reset"),
     Build_State (listingOnly [unchecked]) tt
       [EvGetApps []; EvGetApp "web-1"]) /\
  marathonClient.pollLoop (listingOnly [unchecked]) "web-1" 2
    (start (listingOnly [unchecked]) tt)
  = marathonClient.pollLoop (listingOnly [unchecked]) "web-1" 1
      (Build_State (listingOnly [unchecked]) tt
         [EvGetApps []; EvGetApp "web-1"; EvSleep (500 * Millisecond)]) /\
  snd (fst (marathonClient.pollLoop (listingOnly [unchecked]) "web-1" 2
              (start (listingOnly [unchecked]) tt))) = None /\
  fst (marathonClient.WaitOnApplication unreachable tenSeconds "web-1" 0
         (start unreachable tt)) = Some ErrTimeoutError /\
  fst (marathonClient.WaitOnApplication (listingOnly [unchecked]) tenSeconds
         "web-1" 0 (start (listingOnly [unchecked]) tt))
  = Some ErrTimeoutError.
Proof.
  destruct (WaitOnApplication_swallows_errors unreachable tenSeconds "web-1")
    as (Hretry & _ & _ & Hout).
  destruct (WaitOnApplication_swallows_errors (listingOnly [unchecked])
              tenSeconds "web-1")
    as (_ & Hfetch & Hnil & Hout').
  split; [reflexivity|]. split.
  { apply (Hretry 1%nat (start unreachable tt) _ false
             (ErrTransport "connection refused")).
    reflexivity. }
  split; [reflexivity|]. split.
  { apply (Hfetch 1%nat (start (listingOnly [unchecked]) tt)
             (Build_State (listingOnly [unchecked]) tt [EvGetApps []])
             (Build_State (listingOnly [unchecked]) tt
                [EvGetApps []; EvGetApp "web-1"])
             (ErrTransport "connection reset")); reflexivity. }
  split; [apply Hnil|]. split.
  - destruct (Hout 0 (start unreachable tt)) as [H|H];
      [vm_compute in H; discriminate H|exact H].
  - destruct (Hout' 0 (start (listingOnly [unchecked]) tt)) as [H|H];
      [vm_compute in H; discriminate H|exact H].
Defined.

(** * Further properties of the client *)

(** ** The existence check and [ApplicationOK] *)

Lemma idLoop_In name applications :
  idLoop name applications = true <-> In name applications.
Proof.
  induction applications as [|id rest IH]; simpl.
  - split; [discriminate|contradiction].
  - destruct (String.eqb_spec name id) as [->|Hne].
    + split; auto.
    + rewrite IH. split; [auto|]. intros [Heq|Hin]; [congruence|assumption].
Qed.

Section Existence.

Variable X : Externals.
Variable config : Config.

Lemma HasApplication_empty (s : State X) :
  marathonClient.HasApplication X EmptyString s
  = ((false, Some ErrInvalidArgument), s).
Proof. reflexivity. Qed.

Lemma HasApplication_listing name (s : State X) :
  name <> EmptyString ->
  marathonClient.HasApplication X name s
  = (match fst (getApps X [] (remote s)) with
     | Err e => (false, Some e)
     | Ok apps => (idLoop name (map ID (Apps apps)), None)
     end,
     Build_State X (snd (getApps X [] (remote s)))
       (trace s ++ [EvGetApps []])).
Proof.
  intros Hne. unfold marathonClient.HasApplication.
  destruct (String.eqb_spec name EmptyString) as [|_]; [contradiction|].
  unfold bind, marathonClient.ListApplications, bind,
    marathonClient.Applications, request.
  destruct (getApps X [] (remote s)) as [[apps|e] w]; reflexivity.
Qed.

Lemma Application_request name (s : State X) :
  marathonClient.Application X name s
  = (fst (getApp X (trimRootPath X name) (remote s)),
     Build_State X (snd (getApp X (trimRootPath X name) (remote s)))
       (trace s ++ [EvGetApp (trimRootPath X name)])).
Proof.
  unfold marathonClient.Application, request.
  destruct (getApp X _ (remote s)); reflexivity.
Qed.

(** X1.  For a name that is not empty and a listing that succeeds,
    [HasApplication] makes the one listing request and answers true exactly
    when some listed application has the name as its id, letter for
    letter. *)
Theorem HasApplication_exact_match name (s : State X) apps w :
  name <> EmptyString ->
  getApps X [] (remote s) = (Ok apps, w) ->
  exists found,
    marathonClient.HasApplication X name s
    = ((found, None), Build_State X w (trace s ++ [EvGetApps []])) /\
    (found = true <-> exists a, In a (Apps apps) /\ ID a = name).
Proof.
  intros Hne Hl. exists (idLoop name (map ID (Apps apps))). split.
  - rewrite (HasApplication_listing _ _ Hne), Hl. reflexivity.
  - rewrite idLoop_In, in_map_iff. split.
    + intros (a & Hid & Hin). exists a. auto.
    + intros (a & Hin & Hid). exists a. auto.
Qed.

(** X2.  With the empty name nothing is requested: [ApplicationOK] returns
    the invalid-argument error, the poll loop passes all its turns without a
    request or a sleep and leaves at the stop switch, and
    [WaitOnApplication] leaves the state as it found it. *)
Theorem empty_name_never_requests quiet timeout (s : State X) :
  marathonClient.ApplicationOK X EmptyString s
  = ((false, Some ErrInvalidArgument), s) /\
  marathonClient.pollLoop X EmptyString quiet s = ((Stopped, None), s) /\
  snd (marathonClient.WaitOnApplication X config EmptyString timeout s) = s.
Proof.
  assert (Hloop : forall q,
             marathonClient.pollLoop X EmptyString q s = ((Stopped, None), s)).
  { induction q as [|q IH]; [reflexivity|].
    rewrite (pollLoop_error X EmptyString q s s false ErrInvalidArgument
               (HasApplication_empty s)).
    exact IH. }
  repeat split.
  - apply Hloop.
  - rewrite WaitOnApplication_unfold. unfold marathonClient.deadline.
    rewrite Hloop. destruct (timer_first _); reflexivity.
Qed.

(** X3.  [ApplicationOK] answers true only with a nil error, and only when
    the application was listed, its snapshot fetched, [AllTaskRunning] held
    on it and either no health check was configured or every slot of every
    task was alive; the state it leaves is the one after the fetch. *)
Theorem ApplicationOK_true_only_when name (s s' : State X) e :
  marathonClient.ApplicationOK X name s = ((true, e), s') ->
  e = None /\
  exists s1 application,
    marathonClient.HasApplication X name s = ((true, None), s1) /\
    marathonClient.Application X name s1 = (Ok application, s') /\
    AllTaskRunning application = true /\
    (HasHealthChecks application = false \/
     forall slot, slotOf (elems (Tasks application)) slot -> slotAlive slot).
Proof.
  intros Hok.
  destruct (marathonClient.HasApplication X name s)
    as [[found [err|]] s1] eqn:Hh.
  - unfold marathonClient.ApplicationOK, bind in Hok. rewrite Hh in Hok.
    destruct found; discriminate.
  - destruct found.
    + destruct (marathonClient.Application X name s1) as [[a|err] s2] eqn:Ha.
      * destruct (AllTaskRunning a) eqn:Hr.
        -- destruct (HasHealthChecks a) eqn:Hc.
           ++ pose proof (ApplicationOK_true_all_alive X name s s1 s2 a Hh Ha Hc)
                as Hall.
              rewrite (ApplicationOK_checks X name s s1 s2 a Hh Ha Hr Hc) in Hok.
              assert (Hv : e = None /\ s2 = s').
              { destruct (taskLoop (elems (Tasks a))) as [v|] eqn:Et.
                - apply taskLoop_returns_false in Et. subst v. discriminate.
                - inversion Hok; auto. }
              destruct Hv as [-> <-]. split; [reflexivity|].
              exists s1, a. repeat split; auto.
              right. apply Hall.
              rewrite (ApplicationOK_checks X name s s1 s2 a Hh Ha Hr Hc).
              destruct (taskLoop (elems (Tasks a))) as [v|] eqn:Et;
                [|reflexivity].
              apply taskLoop_returns_false in Et. subst v. discriminate.
           ++ rewrite (ApplicationOK_no_checks X name s s1 s2 a Hh Ha Hr Hc)
                in Hok.
              inversion Hok; subst. split; [reflexivity|].
              exists s1, a. auto.
        -- rewrite (ApplicationOK_not_running X name s s1 s2 a Hh Ha Hr) in Hok.
           discriminate.
      * unfold marathonClient.ApplicationOK, bind in Hok.
        rewrite Hh, Ha in Hok. discriminate.
    + unfold marathonClient.ApplicationOK, bind in Hok. rewrite Hh in Hok.
      discriminate.
Qed.

(** X4.  The error answers of [ApplicationOK] for a name that is not empty:
    a failed listing gives its error, a listing without the name gives
    ErrDoesNotExist, both after the listing request alone; a failed fetch of
    a listed application gives the error of the fetch. *)
Theorem ApplicationOK_errors name (s : State X) :
  name <> EmptyString ->
  (forall e w,
      getApps X [] (remote s) = (Err e, w) ->
      marathonClient.ApplicationOK X name s
      = ((false, Some e), Build_State X w (trace s ++ [EvGetApps []]))) /\
  (forall apps w,
      getApps X [] (remote s) = (Ok apps, w) ->
      ~ In name (map ID (Apps apps)) ->
      marathonClient.ApplicationOK X name s
      = ((false, Some ErrDoesNotExist),
         Build_State X w (trace s ++ [EvGetApps []]))) /\
  (forall apps w e w',
      getApps X [] (remote s) = (Ok apps, w) ->
      In name (map ID (Apps apps)) ->
      getApp X (trimRootPath X name) w = (Err e, w') ->
      marathonClient.ApplicationOK X name s
      = ((false, Some e),
         Build_State X w'
           (trace s ++ [EvGetApps []; EvGetApp (trimRootPath X name)]))).
Proof.
  intros Hne. repeat apply conj.
  - intros e w Hl. unfold marathonClient.ApplicationOK, bind.
    rewrite (HasApplication_listing _ _ Hne), Hl. reflexivity.
  - intros apps w Hl Hnot. unfold marathonClient.ApplicationOK, bind.
    rewrite (HasApplication_listing _ _ Hne), Hl. simpl.
    destruct (idLoop name (map ID (Apps apps))) eqn:Hi; [|reflexivity].
    apply idLoop_In in Hi. contradiction.
  - intros apps w e w' Hl Hin Hf. unfold marathonClient.ApplicationOK, bind.
    rewrite (HasApplication_listing _ _ Hne), Hl. simpl.
    apply idLoop_In in Hin. rewrite Hin.
    rewrite Application_request. simpl. rewrite Hf. simpl.
    rewrite <- app_assoc. reflexivity.
Qed.

(** X5.  [ApplicationOK] only reads: it adds to the trace nothing, the
    listing, or the listing followed by the fetch of the trimmed name, and it
    adds nothing exactly when the name is empty. *)
Theorem ApplicationOK_requests name (s : State X) :
  exists l,
    trace (snd (marathonClient.ApplicationOK X name s)) = (trace s ++ l)%list /\
    (l = [] \/ l = [EvGetApps []] \/
     l = [EvGetApps []; EvGetApp (trimRootPath X name)]) /\
    (l = [] <-> name = EmptyString).
Proof.
  destruct (String.eqb_spec name EmptyString) as [->|Hne].
  - exists []. rewrite app_nil_r. repeat split; auto.
  - unfold marathonClient.ApplicationOK, bind.
    rewrite (HasApplication_listing _ _ Hne).
    destruct (fst (getApps X [] (remote s))) as [apps|e].
    + destruct (idLoop name (map ID (Apps apps))).
      * rewrite Application_request.
        exists [EvGetApps []; EvGetApp (trimRootPath X name)].
        split; [|split; [auto|split; [discriminate|contradiction]]].
        match goal with
        | |- context [fst ?r] => destruct (fst r) as [a|e]
        end.
        -- destruct (negb (AllTaskRunning a)); simpl;
             [rewrite <- app_assoc; reflexivity|].
           destruct (HealthChecks a) as [[|]|]; simpl;
             try (rewrite <- app_assoc; reflexivity).
           destruct (taskLoop _); simpl; rewrite <- app_assoc; reflexivity.
        -- simpl. rewrite <- app_assoc. reflexivity.
      * exists [EvGetApps []]. simpl.
        split; [reflexivity|split; [auto|split; [discriminate|contradiction]]].
    + exists [EvGetApps []]. simpl.
      split; [reflexivity|split; [auto|split; [discriminate|contradiction]]].
Qed.

End Existence.

(** ** The turns of the poll loop *)

Section Turns.

Variable X : Externals.
Variable config : Config.

Lemma HasApplication_trace name (s : State X) :
  trace (snd (marathonClient.HasApplication X name s))
  = (trace s ++ if String.eqb name EmptyString then [] else [EvGetApps []])%list.
Proof.
  destruct (String.eqb_spec name EmptyString) as [->|Hne].
  - simpl. rewrite app_nil_r. reflexivity.
  - rewrite (HasApplication_listing X name s Hne). reflexivity.
Qed.

Lemma HasApplication_found_trace name (s s1 : State X) found :
  marathonClient.HasApplication X name s = ((found, None), s1) ->
  trace s1 = (trace s ++ [EvGetApps []])%list.
Proof.
  intros H. pose proof (HasApplication_trace name s) as Ht.
  rewrite H in Ht. simpl in Ht.
  destruct (String.eqb_spec name EmptyString) as [->|Hne]; [|exact Ht].
  rewrite HasApplication_empty in H. discriminate.
Qed.

Lemma Application_trace name (s s2 : State X) r :
  marathonClient.Application X name s = (r, s2) ->
  trace s2 = (trace s ++ [EvGetApp (trimRootPath X name)])%list.
Proof.
  rewrite Application_request. intros H. inversion H. reflexivity.
Qed.

(** What one turn does: it goes on to the next test from a state whose
    trace grew by one of four shapes, or it returns from a fetched snapshot
    on which [AllTaskRunning] holds. *)
Lemma pollLoop_turn name quiet (s : State X) :
  (exists s' l,
      marathonClient.pollLoop X name (S quiet) s
      = marathonClient.pollLoop X name quiet s' /\
      trace s' = (trace s ++ l)%list /\
      (l = [] \/ l = [EvGetApps []] \/
       l = [EvGetApps []; EvSleep (500 * Millisecond)] \/
       l = [EvGetApps []; EvGetApp (trimRootPath X name);
            EvSleep (500 * Millisecond)])) \/
  (exists s1 s2 application,
      marathonClient.HasApplication X name s = ((true, None), s1) /\
      marathonClient.Application X name s1 = (Ok application, s2) /\
      AllTaskRunning application = true /\
      marathonClient.pollLoop X name (S quiet) s = ((Converged, None), s2) /\
      trace s2
      = (trace s ++ [EvGetApps []; EvGetApp (trimRootPath X name)])%list).
Proof.
  destruct (marathonClient.HasApplication X name s)
    as [[found [err|]] s1] eqn:H.
  - left. exists s1.
    exists (if String.eqb name EmptyString then [] else [EvGetApps []]).
    split; [eapply pollLoop_error; eassumption|].
    split.
    + rewrite <- HasApplication_trace, H. reflexivity.
    + destruct (String.eqb name EmptyString); auto.
  - pose proof (HasApplication_found_trace _ _ _ _ H) as Ht1.
    destruct found.
    + destruct (marathonClient.Application X name s1) as [[a|err] s2] eqn:Ha;
        pose proof (Application_trace _ _ _ _ Ha) as Ht2.
      * destruct (AllTaskRunning a) eqn:Hr.
        -- right. exists s1, s2, a. repeat split; auto.
           ++ eapply pollLoop_converged; eassumption.
           ++ rewrite Ht2, Ht1, <- app_assoc. reflexivity.
        -- left. exists (snd (Sleep (500 * Millisecond) s2)).
           exists [EvGetApps []; EvGetApp (trimRootPath X name);
                   EvSleep (500 * Millisecond)].
           split; [eapply pollLoop_not_running; eassumption|].
           split; [|auto]. simpl. rewrite Ht2, Ht1, <- !app_assoc. reflexivity.
      * left. exists (snd (Sleep (500 * Millisecond) s2)).
        exists [EvGetApps []; EvGetApp (trimRootPath X name);
                EvSleep (500 * Millisecond)].
        split; [eapply pollLoop_fetch_error; eassumption|].
        split; [|auto]. simpl. rewrite Ht2, Ht1, <- !app_assoc. reflexivity.
    + left. exists (snd (Sleep (500 * Millisecond) s1)).
      exists [EvGetApps []; EvSleep (500 * Millisecond)].
      split; [eapply pollLoop_absent; eassumption|].
      split; [|auto]. simpl. rewrite Ht1, <- !app_assoc. reflexivity.
Qed.

(** X6.  Whatever the remote answers, the poll loop only lists, fetches the
    trimmed name and sleeps 500 ms: with [quiet] turns it sleeps at most
    [quiet] times and makes at most two requests per turn. *)
Theorem pollLoop_trace_discipline name quiet (s : State X) :
  exists l,
    trace (snd (marathonClient.pollLoop X name quiet s)) = (trace s ++ l)%list /\
    Forall (fun e => e = EvGetApps [] \/
                     e = EvGetApp (trimRootPath X name) \/
                     e = EvSleep (500 * Millisecond)) l /\
    (List.length (filter isSleep l) <= quiet)%nat /\
    (List.length (filter isRequest l) <= 2 * quiet)%nat.
Proof.
  revert s. induction quiet as [|quiet IH]; intros s.
  - exists []. simpl. rewrite app_nil_r. repeat split; auto.
  - destruct (pollLoop_turn name quiet s)
      as [(s' & l & Heq & Ht & Hl)|(s1 & s2 & a & _ & _ & _ & Heq & Ht)].
    + destruct (IH s') as (l' & Ht' & Hall & Hs & Hr).
      exists (l ++ l')%list. rewrite Heq, Ht', Ht, <- app_assoc.
      split; [reflexivity|].
      rewrite !filter_app, !length_app.
      split.
      * apply Forall_app. split; [|exact Hall].
        destruct Hl as [-> | [-> | [-> | ->]]];
          repeat (apply Forall_cons; [auto|]); apply Forall_nil.
      * destruct Hl as [-> | [-> | [-> | ->]]]; simpl; lia.
    + exists [EvGetApps []; EvGetApp (trimRootPath X name)].
      rewrite Heq. simpl. split; [exact Ht|].
      split; [|lia].
      repeat (apply Forall_cons; [auto|]); apply Forall_nil.
Qed.

(** X7.  The poll loop leaves at its [return nil] only with a nil error and
    only from a snapshot it has just fetched and on which [AllTaskRunning]
    holds: the trace ends with the listing and the fetch, no sleep after
    them. *)
Theorem pollLoop_converged_only_when name quiet (s s' : State X) e :
  marathonClient.pollLoop X name quiet s = ((Converged, e), s') ->
  e = None /\
  exists s0 s1 application l,
    marathonClient.HasApplication X name s0 = ((true, None), s1) /\
    marathonClient.Application X name s1 = (Ok application, s') /\
    AllTaskRunning application = true /\
    trace s'
    = (trace s ++ l ++ [EvGetApps []; EvGetApp (trimRootPath X name)])%list.
Proof.
  revert s. induction quiet as [|quiet IH]; intros s Hc.
  - discriminate.
  - destruct (pollLoop_turn name quiet s)
      as [(s2 & l & Heq & Ht & _)|(s1 & s2 & a & Hh & Ha & Hr & Heq & Ht)].
    + rewrite Heq in Hc. destruct (IH _ Hc) as [-> (s0 & s1 & a & l' & H)].
      split; [reflexivity|]. exists s0, s1, a, (l ++ l')%list.
      destruct H as (Hh & Ha & Hr & Ht').
      repeat split; auto. rewrite Ht', Ht, <- !app_assoc. reflexivity.
    + rewrite Heq in Hc. inversion Hc; subst.
      split; [reflexivity|]. exists s, s1, a, []. auto.
Qed.

(** X8.  While the name is not empty and no listing carries it, every turn
    of the poll loop is one listing followed by one sleep of 500 ms, no
    snapshot is fetched, and the loop leaves only at the stop switch. *)
Theorem pollLoop_never_listed name quiet (s : State X) :
  name <> EmptyString ->
  (forall w, exists apps w',
      getApps X [] w = (Ok apps, w') /\ ~ In name (map ID (Apps apps))) ->
  fst (marathonClient.pollLoop X name quiet s) = (Stopped, None) /\
  trace (snd (marathonClient.pollLoop X name quiet s))
  = (trace s ++
     List.concat
       (repeat [EvGetApps []; EvSleep (500 * Millisecond)] quiet))%list.
Proof.
  intros Hne Hnever. revert s. induction quiet as [|quiet IH]; intros s.
  - simpl. rewrite app_nil_r. auto.
  - destruct (Hnever (remote s)) as (apps & w' & Hl & Hnot).
    assert (Hh : marathonClient.HasApplication X name s
                 = ((false, None),
                    Build_State X w' (trace s ++ [EvGetApps []]))).
    { rewrite (HasApplication_listing X name s Hne), Hl. simpl.
      destruct (idLoop name (map ID (Apps apps))) eqn:Hi; [|reflexivity].
      apply idLoop_In in Hi. contradiction. }
    rewrite (pollLoop_absent X name quiet _ _ Hh).
    destruct (IH (snd (Sleep (500 * Millisecond)
                         (Build_State X w' (trace s ++ [EvGetApps []])))))
      as (Hexit & Htrace).
    split; [exact Hexit|].
    rewrite Htrace. simpl. rewrite <- !app_assoc. reflexivity.
Qed.

(** X9.  While the name is not empty and every listing fails, every turn of
    the poll loop is one listing and nothing else: the loop never sleeps and
    leaves only at the stop switch. *)
Theorem pollLoop_listing_fails name quiet (s : State X) :
  name <> EmptyString ->
  (forall w, exists e w', getApps X [] w = (Err e, w')) ->
  fst (marathonClient.pollLoop X name quiet s) = (Stopped, None) /\
  trace (snd (marathonClient.pollLoop X name quiet s))
  = (trace s ++ repeat (EvGetApps []) quiet)%list.
Proof.
  intros Hne Hfails. revert s. induction quiet as [|quiet IH]; intros s.
  - simpl. rewrite app_nil_r. auto.
  - destruct (Hfails (remote s)) as (e & w' & Hl).
    assert (Hh : marathonClient.HasApplication X name s
                 = ((false, Some e),
                    Build_State X w' (trace s ++ [EvGetApps []]))).
    { rewrite (HasApplication_listing X name s Hne), Hl. reflexivity. }
    rewrite (pollLoop_error X name quiet _ _ _ _ Hh).
    destruct (IH (Build_State X w' (trace s ++ [EvGetApps []])))
      as (Hexit & Htrace).
    split; [exact Hexit|].
    rewrite Htrace. simpl. rewrite <- !app_assoc. reflexivity.
Qed.

(** ** Creating and updating *)

(** X10.  [CreateApplication] makes one POST.  When it fails, nil and its
    error are returned and nothing is polled.  When it succeeds the
    application is returned in every case: alone and at once without
    [waitOnRunning], and with it together with the outcome of the wait on
    the application's id, bounded by the default deployment timeout, which
    is nil or the timeout error. *)
Theorem CreateApplication_outcomes (application : Application)
    (waitOnRunning : bool) (s : State X) :
  let posted :=
    Build_State X (snd (postApp X application (remote s)))
      (trace s ++ [EvPostApp (ID application)]) in
  let wait :=
    marathonClient.deadline X (DefaultDeploymentTimeout config)
      (marathonClient.pollLoop X (ID application)) posted in
  match fst (postApp X application (remote s)) with
  | Err e =>
      marathonClient.CreateApplication X config application waitOnRunning s
      = ((None, Some e), posted)
  | Ok result =>
      if waitOnRunning then
        marathonClient.CreateApplication X config application true s
        = ((Some result, fst wait), snd wait) /\
        (fst wait = None \/ fst wait = Some ErrTimeoutError)
      else
        marathonClient.CreateApplication X config application false s
        = ((Some result, None), posted)
  end.
Proof.
  intros posted wait.
  destruct (postApp X application (remote s)) as [[result|e] w] eqn:Hp;
    simpl.
  - destruct waitOnRunning.
    + split.
      * rewrite (CreateApplication_waits X config _ _ _ _ Hp).
        rewrite WaitOnApplication_unfold. simpl.
        subst wait posted. rewrite ?Hp. simpl.
        destruct (marathonClient.deadline _ _ _ _). reflexivity.
      * apply deadline_outcome. intros. apply pollLoop_returns_nil.
    + unfold marathonClient.CreateApplication, bind, request.
      subst posted. rewrite ?Hp. reflexivity.
  - unfold marathonClient.CreateApplication, bind, request.
    subst posted. rewrite ?Hp. reflexivity.
Qed.

(** X11.  [UpdateApplication] makes one PUT to the trimmed id.  When it
    fails, nil and its error are returned and nothing is polled.  When it
    succeeds the deployment is returned in every case: alone and at once
    without [waitOnRunning], and with it together with the outcome of the
    wait on the id as given, bounded by the default deployment timeout. *)
Theorem UpdateApplication_outcomes (application : Application)
    (waitOnRunning : bool) (s : State X) :
  let put :=
    Build_State X
      (snd (putApp X (trimRootPath X (ID application)) application (remote s)))
      (trace s ++ [EvPutApp (trimRootPath X (ID application))]) in
  let wait :=
    marathonClient.deadline X (DefaultDeploymentTimeout config)
      (marathonClient.pollLoop X (ID application)) put in
  match fst (putApp X (trimRootPath X (ID application)) application
               (remote s)) with
  | Err e =>
      marathonClient.UpdateApplication X config application waitOnRunning s
      = ((None, Some e), put)
  | Ok result =>
      if waitOnRunning then
        marathonClient.UpdateApplication X config application true s
        = ((Some result, fst wait), snd wait) /\
        (fst wait = None \/ fst wait = Some ErrTimeoutError)
      else
        marathonClient.UpdateApplication X config application false s
        = ((Some result, None), put)
  end.
Proof.
  intros put wait.
  destruct (putApp X (trimRootPath X (ID application)) application (remote s))
    as [[result|e] w] eqn:Hp; simpl.
  - destruct waitOnRunning.
    + split.
      * rewrite (UpdateApplication_waits X config _ _ _ _ Hp).
        rewrite WaitOnApplication_unfold. simpl.
        subst wait put. rewrite ?Hp. simpl.
        destruct (marathonClient.deadline _ _ _ _). reflexivity.
      * apply deadline_outcome. intros. apply pollLoop_returns_nil.
    + unfold marathonClient.UpdateApplication, bind, request.
      subst put. rewrite ?Hp. reflexivity.
  - unfold marathonClient.UpdateApplication, bind, request.
    subst put. rewrite ?Hp. reflexivity.
Qed.

End Turns.

(** * Properties of the builder methods and of [Deployments] *)

Lemma deployLoop_elems version maps deployments :
  elems (deployLoop version maps deployments)
  = (elems deployments ++
     map (fun id => {| Deployment_Version := version; Deployment_ID := id |})
       (deploymentIds maps))%list.
Proof.
  revert deployments. induction maps as [|deploy rest IH]; intros deployments.
  - simpl. rewrite app_nil_r. reflexivity.
  - simpl. destruct (deploy "id") as [id|].
    + rewrite IH. simpl. rewrite <- app_assoc. reflexivity.
    + apply IH.
Qed.

Lemma deployLoop_nil version maps deployments :
  deployLoop version maps deployments = None <->
  deployments = None /\ deploymentIds maps = [].
Proof.
  revert deployments. induction maps as [|deploy rest IH]; intros deployments.
  - simpl. split; [auto|]. intros [H _]. exact H.
  - simpl. destruct (deploy "id") as [id|].
    + rewrite IH. simpl. split; intros [H1 H2]; congruence.
    + apply IH.
Qed.

Section Built.

Variable Docker : Type.
Variable ServicePortIndex : Docker -> Z -> Z * option error.
Variable NewDefaultHealthCheck : HealthCheck.

(** X12.  [Deployments] returns, in order, one deployment for every map
    that has the key id, each carrying that id and the version of the
    application; maps without the key are passed over, and the result is nil
    exactly when no map has the key, a nil or empty list included. *)
Theorem Deployments_ids (r : ApplicationStruct Docker) :
  elems (Deployments Docker r)
  = map (fun id => {| Deployment_Version := Version r; Deployment_ID := id |})
      (deploymentIds (elems (App_DeploymentID r))) /\
  (Deployments Docker r = None <->
   deploymentIds (elems (App_DeploymentID r)) = []).
Proof.
  unfold Deployments.
  destruct (App_DeploymentID r) as [[|deploy rest]|]; simpl elems at 2 3.
  - simpl. split; [reflexivity|]. split; reflexivity.
  - split.
    + rewrite deployLoop_elems. reflexivity.
    + rewrite deployLoop_nil. split; [intros [_ H]; exact H|auto].
  - simpl. split; [reflexivity|]. split; reflexivity.
Qed.

Lemma Arg_fold arguments (r : ApplicationStruct Docker) :
  let r' := fold_left (fun acc a => Arg Docker a acc) arguments r in
  elems (Args r') = (elems (Args r) ++ arguments)%list /\
  (Args r' = None <-> Args r = None /\ arguments = []) /\
  Dependencies r' = Dependencies r /\ built r' = built r.
Proof.
  revert r. induction arguments as [|a rest IH]; intros r; simpl.
  - rewrite app_nil_r. split; [reflexivity|].
    split; [|auto]. split; [auto|]. intros [H _]. exact H.
  - destruct (IH (Arg Docker a r)) as (He & Hn & Hd & Hb).
    split; [|split; [|split]].
    + rewrite He. simpl. rewrite <- app_assoc. reflexivity.
    + rewrite Hn. simpl. split; intros [H1 H2]; discriminate.
    + rewrite Hd. reflexivity.
    + rewrite Hb. reflexivity.
Qed.

Lemma DependsOn_fold names (r : ApplicationStruct Docker) :
  let r' := fold_left (fun acc n => DependsOn Docker n acc) names r in
  elems (Dependencies r') = (elems (Dependencies r) ++ names)%list /\
  (Dependencies r' = None <-> Dependencies r = None /\ names = []) /\
  Args r' = Args r /\ built r' = built r.
Proof.
  revert r. induction names as [|n rest IH]; intros r; simpl.
  - rewrite app_nil_r. split; [reflexivity|].
    split; [|auto]. split; [auto|]. intros [H _]. exact H.
  - destruct (IH (DependsOn Docker n r)) as (He & Hn & Hd & Hb).
    split; [|split; [|split]].
    + rewrite He. simpl. rewrite <- app_assoc. reflexivity.
    + rewrite Hn. simpl. split; intros [H1 H2]; discriminate.
    + rewrite Hd. reflexivity.
    + rewrite Hb. reflexivity.
Qed.

(** X13.  Calls of [Arg] and of [DependsOn] accumulate: after any number of
    them the arguments and the dependencies are the former ones followed by
    the new ones in call order, each list is nil only if it was nil and
    nothing was added to it, and the readiness fields are untouched. *)
Theorem Arg_DependsOn_accumulate arguments names
    (r : ApplicationStruct Docker) :
  let r' :=
    fold_left (fun acc n => DependsOn Docker n acc) names
      (fold_left (fun acc a => Arg Docker a acc) arguments r) in
  elems (Args r') = (elems (Args r) ++ arguments)%list /\
  elems (Dependencies r') = (elems (Dependencies r) ++ names)%list /\
  (Args r' = None <-> Args r = None /\ arguments = []) /\
  (Dependencies r' = None <-> Dependencies r = None /\ names = []) /\
  built r' = built r.
Proof.
  intros r'. subst r'.
  pose proof (Arg_fold arguments r) as HA. cbv zeta in HA.
  pose proof (DependsOn_fold names
                (fold_left (fun acc a => Arg Docker a acc) arguments r)) as HD.
  cbv zeta in HD.
  destruct HA as (Ha & Han & Had & Hab).
  destruct HD as (Hd & Hdn & Hda & Hdb).
  split; [|split; [|split; [|split]]].
  - rewrite Hda. exact Ha.
  - rewrite Hd, Had. reflexivity.
  - rewrite Hda. exact Han.
  - rewrite Hdn, Had. reflexivity.
  - rewrite Hdb. exact Hab.
Qed.

Lemma ensureHealthChecks_elems (r : ApplicationStruct Docker) :
  elems (HealthChecks (built (ensureHealthChecks Docker r)))
  = elems (HealthChecks (built r)) /\
  HealthChecks (built (ensureHealthChecks Docker r)) <> None /\
  HasHealthChecks (built (ensureHealthChecks Docker r))
  = HasHealthChecks (built r) /\
  App_Container (ensureHealthChecks Docker r) = App_Container r /\
  Instances (built (ensureHealthChecks Docker r)) = Instances (built r) /\
  Tasks (built (ensureHealthChecks Docker r)) = Tasks (built r).
Proof.
  unfold ensureHealthChecks, HasHealthChecks.
  destruct (HealthChecks (built r)) as [l|] eqn:E; simpl.
  - rewrite E. repeat split; auto. discriminate.
  - repeat split; auto. discriminate.
Qed.

(** X14.  When the application has a container with a docker section that
    maps the port, [CheckHTTP] and [CheckTCP] succeed and add one check at
    the end of the list, after the checks already there: the HTTP check
    with the given path, the TCP check with protocol TCP, both with the
    given interval and the index of the port, the other fields as
    [NewDefaultHealthCheck] sets them.  The application then has health
    checks; its instance count and tasks are untouched. *)
Theorem Check_adds_one_check uri port interval
    (r : ApplicationStruct Docker) container docker portIndex :
  App_Container r = Some container ->
  Container_Docker container = Some docker ->
  ServicePortIndex docker port = (portIndex, None) ->
  (exists r',
      CheckHTTP Docker ServicePortIndex NewDefaultHealthCheck
        uri port interval r = (r', None) /\
      elems (HealthChecks (built r'))
      = (elems (HealthChecks (built r)) ++
         [{| Protocol := Protocol NewDefaultHealthCheck; Path := uri;
             PortIndex := portIndex; IntervalSeconds := interval |}])%list /\
      HasHealthChecks (built r') = true /\
      Instances (built r') = Instances (built r) /\
      Tasks (built r') = Tasks (built r)) /\
  (exists r',
      CheckTCP Docker ServicePortIndex NewDefaultHealthCheck
        port interval r = (r', None) /\
      elems (HealthChecks (built r'))
      = (elems (HealthChecks (built r)) ++
         [{| Protocol := "TCP"; Path := Path NewDefaultHealthCheck;
             PortIndex := portIndex; IntervalSeconds := interval |}])%list /\
      HasHealthChecks (built r') = true /\
      Instances (built r') = Instances (built r) /\
      Tasks (built r') = Tasks (built r)).
Proof.
  intros Hc Hd Hp.
  destruct (ensureHealthChecks_elems r) as (He & _ & _ & Hc' & Hi & Ht).
  rewrite <- Hc' in Hc. rewrite <- He, <- Hi, <- Ht.
  split; eexists; (split;
    [ unfold CheckHTTP, CheckTCP; rewrite Hc, Hd, Hp; reflexivity
    | simpl; repeat split; unfold HasHealthChecks; simpl;
      destruct (elems (HealthChecks (built (ensureHealthChecks Docker r))));
      reflexivity ]).
Qed.

(** X15.  When [CheckHTTP] or [CheckTCP] fails, no check is added: the
    receiver keeps the checks it had, though a nil list has become an empty
    one, and the error is ErrNoApplicationContainer or the error of
    [ServicePortIndex] on the docker section of the container. *)
Theorem Check_failure_adds_nothing uri port interval
    (r r' : ApplicationStruct Docker) e :
  CheckHTTP Docker ServicePortIndex NewDefaultHealthCheck uri port interval r
  = (r', Some e) \/
  CheckTCP Docker ServicePortIndex NewDefaultHealthCheck port interval r
  = (r', Some e) ->
  elems (HealthChecks (built r')) = elems (HealthChecks (built r)) /\
  HealthChecks (built r') <> None /\
  HasHealthChecks (built r') = HasHealthChecks (built r) /\
  (e = ErrNoApplicationContainer \/
   exists container docker,
     App_Container r = Some container /\
     Container_Docker container = Some docker /\
     snd (ServicePortIndex docker port) = Some e).
Proof.
  destruct (ensureHealthChecks_elems r) as (He & Hn & Hh & Hc & _ & _).
  assert (Hgen :
    forall check : Z -> HealthCheck,
      match App_Container (ensureHealthChecks Docker r) with
      | None => (ensureHealthChecks Docker r, Some ErrNoApplicationContainer)
      | Some container =>
          match Container_Docker container with
          | None =>
              (ensureHealthChecks Docker r, Some ErrNoApplicationContainer)
          | Some docker =>
              match ServicePortIndex docker port with
              | (_, Some err) => (ensureHealthChecks Docker r, Some err)
              | (portIndex, None) =>
                  (appendHealthCheck Docker (check portIndex)
                     (ensureHealthChecks Docker r), None)
              end
          end
      end = (r', Some e) ->
      elems (HealthChecks (built r')) = elems (HealthChecks (built r)) /\
      HealthChecks (built r') <> None /\
      HasHealthChecks (built r') = HasHealthChecks (built r) /\
      (e = ErrNoApplicationContainer \/
       exists container docker,
         App_Container r = Some container /\
         Container_Docker container = Some docker /\
         snd (ServicePortIndex docker port) = Some e)).
  { intros check. rewrite Hc.
    destruct (App_Container r) as [container|].
    - destruct (Container_Docker container) as [docker|] eqn:Hd.
      + destruct (ServicePortIndex docker port) as [i [err|]] eqn:Hp.
        * intros H. inversion H; subst. repeat split; auto.
          right. exists container, docker. rewrite Hp. auto.
        * discriminate.
      + intros H. inversion H; subst. repeat split; auto.
    - intros H. inversion H; subst. repeat split; auto. }
  intros [H|H].
  - apply (Hgen (fun portIndex =>
                   {| Protocol := Protocol NewDefaultHealthCheck; Path := uri;
                      PortIndex := portIndex; IntervalSeconds := interval |})).
    exact H.
  - apply (Hgen (fun portIndex =>
                   {| Protocol := "TCP"; Path := Path NewDefaultHealthCheck;
                      PortIndex := portIndex; IntervalSeconds := interval |})).
    exact H.
Qed.

End Built.

(** ** The further properties at concrete inputs *)

Lemma HasApplication_exact_match_witness :
  exists found,
    marathonClient.HasApplication (serving [rooted]) "web-1" (boot [rooted])
    = ((found, None), Build_State (serving [rooted]) tt [EvGetApps []]) /\
    (found = true <-> exists a, In a [rooted] /\ ID a = "web-1").
Proof.
  apply (HasApplication_exact_match (serving [rooted]) "web-1" (boot [rooted])
           {| Apps := [rooted] |} tt).
  - discriminate.
  - reflexivity.
Defined.

Lemma ApplicationOK_true_only_when_witness :
  None = (None : option error) /\
  exists s1 application,
    marathonClient.HasApplication (serving [unchecked]) "web-1"
      (boot [unchecked]) = ((true, None), s1) /\
    marathonClient.Application (serving [unchecked]) "web-1" s1
    = (Ok application, listedAndFetched [unchecked]) /\
    AllTaskRunning application = true /\
    (HasHealthChecks application = false \/
     forall slot, slotOf (elems (Tasks application)) slot -> slotAlive slot).
Proof.
  apply (ApplicationOK_true_only_when (serving [unchecked]) "web-1"
           (boot [unchecked]) (listedAndFetched [unchecked]) None).
  reflexivity.
Defined.

Lemma ApplicationOK_errors_witness :
  marathonClient.ApplicationOK (listingOnly [unchecked]) "web-1"
    (start (listingOnly [unchecked]) tt)
  = ((false, Some (ErrTransport "connection reset")),
     Build_State (listingOnly [unchecked]) tt
       [EvGetApps []; EvGetApp "web-1"]).
Proof.
  assert (Hne : "web-1" <> EmptyString) by discriminate.
  destruct (ApplicationOK_errors (listingOnly [unchecked]) "web-1"
              (start (listingOnly [unchecked]) tt) Hne)
    as (_ & _ & Hfetch).
  apply (Hfetch {| Apps := [unchecked] |} tt
           (ErrTransport "connection reset") tt).
  - reflexivity.
  - simpl. auto.
  - reflexivity.
Defined.

Lemma pollLoop_converged_only_when_witness :
  None = (None : option error) /\
  exists s0 s1 application l,
    marathonClient.HasApplication (serving [unchecked]) "web-1" s0
    = ((true, None), s1) /\
    marathonClient.Application (serving [unchecked]) "web-1" s1
    = (Ok application, listedAndFetched [unchecked]) /\
    AllTaskRunning application = true /\
    trace (listedAndFetched [unchecked])
    = (trace (boot [unchecked]) ++ l ++
       [EvGetApps [];
        EvGetApp (trimRootPath (serving [unchecked]) "web-1")])%list.
Proof.
  apply (pollLoop_converged_only_when (serving [unchecked]) "web-1" 3
           (boot [unchecked]) (listedAndFetched [unchecked]) None).
  reflexivity.
Defined.

Lemma pollLoop_never_listed_witness :
  fst (marathonClient.pollLoop (serving [rooted]) "web-1" 2 (boot [rooted]))
  = (Stopped, None) /\
  trace (snd (marathonClient.pollLoop (serving [rooted]) "web-1" 2
                (boot [rooted])))
  = [EvGetApps []; EvSleep (500 * Millisecond);
     EvGetApps []; EvSleep (500 * Millisecond)].
Proof.
  apply (pollLoop_never_listed (serving [rooted]) "web-1" 2 (boot [rooted])).
  - discriminate.
  - intros w. exists {| Apps := [rooted] |}, w. split.
    + destruct w. reflexivity.
    + simpl. intros [H|[]]. discriminate.
Defined.

Lemma pollLoop_listing_fails_witness :
  fst (marathonClient.pollLoop unreachable "web-1" 2 (start unreachable tt))
  = (Stopped, None) /\
  trace (snd (marathonClient.pollLoop unreachable "web-1" 2
                (start unreachable tt)))
  = [EvGetApps []; EvGetApps []].
Proof.
  apply (pollLoop_listing_fails unreachable "web-1" 2 (start unreachable tt)).
  - discriminate.
  - intros w. exists (ErrTransport "connection refused"), w.
    destruct w. reflexivity.
Defined.

Lemma Check_adds_one_check_witness :
  (exists r',
      CheckHTTP (list Z) mappedPorts plainCheck "/health" 9090 30 dockerised
      = (r', None) /\
      elems (HealthChecks (built r'))
      = [{| Protocol := "HTTP"; Path := "/health"; PortIndex := 1;
            IntervalSeconds := 30 |}] /\
      HasHealthChecks (built r') = true /\
      Instances (built r') = 0 /\
      Tasks (built r') = None) /\
  (exists r',
      CheckTCP (list Z) mappedPorts plainCheck 9090 30 dockerised
      = (r', None) /\
      elems (HealthChecks (built r'))
      = [{| Protocol := "TCP"; Path := EmptyString; PortIndex := 1;
            IntervalSeconds := 30 |}] /\
      HasHealthChecks (built r') = true /\
      Instances (built r') = 0 /\
      Tasks (built r') = None).
Proof.
  apply (Check_adds_one_check (list Z) mappedPorts plainCheck "/health" 9090
           30 dockerised {| Container_Docker := Some [8080; 9090] |}
           [8080; 9090] 1); reflexivity.
Defined.

Lemma Check_failure_adds_nothing_witness :
  elems (HealthChecks (built (fst (CheckTCP (list Z) mappedPorts plainCheck
                                     8080 30 (blank None)))))
  = [] /\
  HealthChecks (built (fst (CheckTCP (list Z) mappedPorts plainCheck
                              8080 30 (blank None)))) <> None /\
  HasHealthChecks (built (fst (CheckTCP (list Z) mappedPorts plainCheck
                                 8080 30 (blank None))))
  = false /\
  (ErrNoApplicationContainer = ErrNoApplicationContainer \/
   exists container docker,
     App_Container (blank None) = Some container /\
     Container_Docker container = Some docker /\
     snd (mappedPorts docker 8080) = Some ErrNoApplicationContainer).
Proof.
  apply (Check_failure_adds_nothing (list Z) mappedPorts plainCheck
           "/health" 8080 30 (blank None)
           (fst (CheckTCP (list Z) mappedPorts plainCheck 8080 30
                   (blank None)))
           ErrNoApplicationContainer).
  right. reflexivity.
Defined.
